(** * ase.calculators.neighborlist: a shallow embedding of [NeighborList]

    The Python class keeps its state in instance attributes and signals
    failure by raising exceptions.  It is embedded here as follows.

    - Floats are idealised as real numbers ([R]); [int(x)] truncates toward
      zero, [x % 1.0] is the floored remainder, [x ** 2] is [x ^ 2].
    - An [N x 3] array is a [list vec3], the cell a [mat3] (rows are lattice
      vectors), the periodicity flags a triple of booleans.
    - An instance is a record of attribute slots.  [__init__] creates only
      [cutoffs] and [skin]; every other attribute may be missing, and reading
      a missing attribute raises [AttributeError].
    - A method is a computation in a small state-and-exception monad [M].
      A run yields the outcome (returned value or raised exception), the
      instance as the call leaves it (also when it raises) and the trace of
      [build] invocations.
    - The module never binds the free names [cutoffs] and [displ] that
      [build] and [neighbors] read; they are supplied by a [globals] record
      in which an unbound name raises [NameError].  [npy] and [sqrt] are
      taken to be numpy and the square root.  Rounding, overflow and the
      non-finite floats are not modelled.
    - Dict objects live in a store, so that the table made by [__init__] can
      be told apart from the mapping the caller passed in. *)

From Stdlib Require Import Reals Lra Lia ZArith List.
From Stdlib Require Import Zfloor.
From stdpp Require Import base option list gmap strings.

Open Scope R_scope.

(** ** Python-level values, exceptions and outcomes *)

Inductive exn :=
| AttributeError
| NameError
| TypeError
| ValueError
| IndexError
| ZeroDivisionError
| LinAlgError.

Inductive outcome (A : Type) :=
| Returned (a : A)
| Raised (e : exn).
Arguments Returned {A} a.
Arguments Raised {A} e.

Definition obind {A B} (o : outcome A) (f : A -> outcome B) : outcome B :=
  match o with
  | Returned a => f a
  | Raised e => Raised e
  end.

(** ** Triples, vectors and 3x3 matrices *)

Record triple (A : Type) := Triple { t0 : A; t1 : A; t2 : A }.
Arguments Triple {A} t0 t1 t2.
Arguments t0 {A} t.
Arguments t1 {A} t.
Arguments t2 {A} t.

(** The three values of [range(3)]. *)
Inductive axis := A0 | A1 | A2.

Definition range3 : list axis := [A0; A1; A2].

Definition get {A} (t : triple A) (i : axis) : A :=
  match i with A0 => t0 t | A1 => t1 t | A2 => t2 t end.

Definition set {A} (t : triple A) (i : axis) (x : A) : triple A :=
  match i with
  | A0 => Triple x (t1 t) (t2 t)
  | A1 => Triple (t0 t) x (t2 t)
  | A2 => Triple (t0 t) (t1 t) x
  end.

Definition vec3 := triple R.
Definition mat3 := triple vec3.
Definition bool3 := triple bool.

Definition vsub (u v : vec3) : vec3 :=
  Triple (t0 u - t0 v) (t1 u - t1 v) (t2 u - t2 v).

Definition vneg (u : vec3) : vec3 := Triple (- t0 u) (- t1 u) (- t2 u).

Definition vdot (u v : vec3) : R := t0 u * t0 v + t1 u * t1 v + t2 u * t2 v.

Definition row (m : mat3) (i : axis) : vec3 := get m i.

(** [m[:, i]] *)
Definition col (m : mat3) (i : axis) : vec3 :=
  Triple (get (t0 m) i) (get (t1 m) i) (get (t2 m) i).

Definition vecmat (p : vec3) (m : mat3) : vec3 :=
  Triple (vdot p (col m A0)) (vdot p (col m A1)) (vdot p (col m A2)).

Definition det (m : mat3) : R :=
  let a := t0 m in let b := t1 m in let c := t2 m in
  t0 a * (t1 b * t2 c - t2 b * t1 c)
  - t1 a * (t0 b * t2 c - t2 b * t0 c)
  + t2 a * (t0 b * t1 c - t1 b * t0 c).

Definition adjugate (m : mat3) : mat3 :=
  let a := t0 m in let b := t1 m in let c := t2 m in
  Triple
    (Triple (t1 b * t2 c - t2 b * t1 c)
            (t2 a * t1 c - t1 a * t2 c)
            (t1 a * t2 b - t2 a * t1 b))
    (Triple (t2 b * t0 c - t0 b * t2 c)
            (t0 a * t2 c - t2 a * t0 c)
            (t2 a * t0 b - t0 a * t2 b))
    (Triple (t0 b * t1 c - t1 b * t0 c)
            (t1 a * t0 c - t0 a * t1 c)
            (t0 a * t1 b - t1 a * t0 b)).

Definition vscale (k : R) (u : vec3) : vec3 :=
  Triple (k * t0 u) (k * t1 u) (k * t2 u).

Definition mscale (k : R) (m : mat3) : mat3 :=
  Triple (vscale k (t0 m)) (vscale k (t1 m)) (vscale k (t2 m)).

(** ** The numpy and builtin operations the class calls *)

Module npy.

(** [npy.linalg.inv]: a singular matrix raises [LinAlgError]. *)
Definition inv (m : mat3) : outcome mat3 :=
  if Req_dec_T (det m) 0 then Raised LinAlgError
  else Returned (mscale (/ det m) (adjugate m)).

(** [npy.dot] of an [N x 3] array with a 3x3 matrix. *)
Definition dot (P : list vec3) (m : mat3) : list vec3 :=
  map (fun p => vecmat p m) P.

(** [npy.dot(x, m)] where [x] may be [None]. *)
Definition dot_opt (x : option (list vec3)) (m : mat3)
  : outcome (list vec3) :=
  match x with
  | Some P => Returned (dot P m)
  | None => Raised TypeError
  end.

(** [a - b] on [N x 3] and [M x 3] arrays, with numpy's broadcasting of a
    single row; other shape mismatches raise [ValueError]. *)
Definition sub (a b : list vec3) : outcome (list vec3) :=
  if decide (length a = length b) then Returned (zip_with vsub a b)
  else match a, b with
       | [x], _ => Returned (map (fun y => vsub x y) b)
       | _, [y] => Returned (map (fun x => vsub x y) a)
       | _, _ => Raised ValueError
       end.

(** [a ** 2], elementwise. *)
Definition sq (a : list vec3) : list vec3 :=
  map (fun v => Triple (t0 v ^ 2) (t1 v ^ 2) (t2 v ^ 2)) a.

Definition flat (a : list vec3) : list R :=
  flat_map (fun v => [t0 v; t1 v; t2 v]) a.

(** [a.max()] over all entries; an empty array raises [ValueError]. *)
Definition max (a : list vec3) : outcome R :=
  match flat a with
  | [] => Raised ValueError
  | x :: xs => Returned (fold_left Rmax xs x)
  end.

End npy.

(** [max(d.values())] of a dict. *)
Definition max_values (d : gmap Z R) : outcome R :=
  match (map_to_list d).*2 with
  | [] => Raised ValueError
  | x :: xs => Returned (fold_left Rmax xs x)
  end.

(** [int(x)] on a float: truncation toward zero. *)
Definition int (x : R) : Z := if Rle_dec 0 x then Zfloor x else Zceil x.

(** [x % y] on floats, for a divisor [y > 0]: the floored remainder. *)
Definition fmod (x y : R) : R := x - IZR (Zfloor (x / y)) * y.

(** [x / y] on floats. *)
Definition fdiv (x y : R) : outcome R :=
  if Req_dec_T y 0 then Raised ZeroDivisionError else Returned (x / y).

(** [l[a]] on a Python sequence: negative indices count from the end. *)
Definition index {A} (l : list A) (a : Z) : outcome A :=
  let n := Z.of_nat (length l) in
  let k := if (a <? 0)%Z then (a + n)%Z else a in
  if (0 <=? k)%Z && (k <? n)%Z
  then match l !! Z.to_nat k with
       | Some x => Returned x
       | None => Raised IndexError
       end
  else Raised IndexError.

(** ** Instances, atoms, globals and the store of dict objects *)

Abbreviation loc := positive.

(** The dict objects of the heap, by address. *)
Abbreviation store := (gmap loc (gmap Z R)).

(** A [NeighborList] instance.  [cutoffs] is a reference to a dict object;
    an attribute slot that is [None] has never been assigned.  For
    [positions] the inner option is Python's [None]. *)
Record NeighborList := {
  cutoffs : loc;
  skin : R;
  positions : option (option (list vec3));
  pbc : option bool3;
  cell : option mat3;
  nbors : option (list (list Z))
}.

(** What the class reads of an [Atoms] object. *)
Record Atoms := {
  atoms_positions : list vec3;
  atoms_pbc : bool3;
  atoms_cell : mat3
}.

Definition get_positions (atoms : Atoms) := atoms_positions atoms.
Definition get_pbc (atoms : Atoms) := atoms_pbc atoms.
Definition get_cell (atoms : Atoms) := atoms_cell atoms.

#[warnings="-register-all"]
Inductive pyval :=
| PyNone
| PyBool (b : bool)
| PyInts (l : list Z)
| PyVecs (l : list vec3)
| PyTuple (l : list pyval).

(** The module-level names that the methods read but the module does not
    define.  [None] is an unbound name. *)
Record globals := {
  g_cutoffs : option (gmap Z R);
  g_displ : option pyval
}.

Definition global {A} (x : option A) : outcome A :=
  match x with
  | Some v => Returned v
  | None => Raised NameError
  end.

(** ** The state-and-exception monad of method calls *)

(** The only event traced: an invocation of [build]. *)
Inductive event := CallBuild.

(** What a call leaves behind: its outcome, the instance afterwards (also
    when it raised) and the invocations of [build] it made. *)
Record run (A : Type) := Run {
  res : outcome A;
  post : NeighborList;
  trace : list event
}.
Arguments Run {A} res post trace.
Arguments res {A} r.
Arguments post {A} r.
Arguments trace {A} r.

Definition M (A : Type) := NeighborList -> run A.

Definition ret {A} (a : A) : M A := fun s => Run (Returned a) s [].

(** Sequencing: an exception ends the computation and keeps the instance as
    it is at that point. *)
Definition bind {A B} (m : M A) (f : A -> M B) : M B :=
  fun s =>
    let r := m s in
    match res r with
    | Returned a =>
        let r' := f a (post r) in
        Run (res r') (post r') (trace r ++ trace r')
    | Raised e => Run (Raised e) (post r) (trace r)
    end.

(** A step that does not touch the instance. *)
Definition lift {A} (o : outcome A) : M A := fun s => Run o s [].

Definition emit (e : event) : M unit := fun s => Run (Returned tt) s [e].

(** [self.x]: reading a slot that was never assigned raises. *)
Definition getattr {A} (slot : NeighborList -> option A) : M A :=
  fun s =>
    match slot s with
    | Some v => Run (Returned v) s []
    | None => Run (Raised AttributeError) s []
    end.

(** Reading an attribute that [__init__] always creates. *)
Definition getfield {A} (field : NeighborList -> A) : M A :=
  fun s => Run (Returned (field s)) s [].

(** [self.x = v] *)
Definition modify (f : NeighborList -> NeighborList) : M unit :=
  fun s => Run (Returned tt) (f s) [].

#[global] Instance M_ret : MRet M := @ret.
#[global] Instance M_bind : MBind M := fun A B f m => bind m f.

Definition set_pbc (v : bool3) (s : NeighborList) : NeighborList :=
  {| cutoffs := cutoffs s; skin := skin s; positions := positions s;
     pbc := Some v; cell := cell s; nbors := nbors s |}.

Definition set_cell (v : mat3) (s : NeighborList) : NeighborList :=
  {| cutoffs := cutoffs s; skin := skin s; positions := positions s;
     pbc := pbc s; cell := Some v; nbors := nbors s |}.

(** ** The class *)

(** [NeighborList.__init__(self, cutoffs, skin=0.3)].  The comprehension
    builds a new dict object, allocated at an address the store does not
    use yet.  The result is [None] only for a dangling reference, which
    Python cannot produce. *)
Definition __init__ (cutoffs_arg : loc) (skin_arg : option R) (h : store)
  : option (NeighborList * store) :=
  match h !! cutoffs_arg with
  | None => None
  | Some d =>
      let skin := default 0.3 skin_arg in
      let l := fresh (dom h) in
      Some ({| cutoffs := l; skin := skin; positions := None;
               pbc := None; cell := None; nbors := None |},
            <[l := (fun rc => rc + skin) <$> d]> h)
  end.

(** The local variables of [build] when it reaches its last line. *)
Record frame := {
  f_rcmax : R;
  f_icell : mat3;
  f_scaled : list vec3;
  f_N : list Z;
  f_R : list vec3
}.

(** One pass of the [for i in range(3)] loop over [scaled] and [N]. *)
Definition axis_step (pbc : bool3) (icell : mat3) (rcmax : R)
    (st : list vec3 * list Z) (i : axis) : outcome (list vec3 * list Z) :=
  let '(scaled, N) := st in
  if get pbc i then
    let scaled := map (fun p => set p i (fmod (get p i) 1)) scaled in
    let v := col icell i in
    obind (fdiv 1 (sqrt (vdot v v))) (fun h =>
    obind (fdiv rcmax h) (fun q =>
    Returned (scaled, N ++ [(int q + 1)%Z])))
  else Returned (scaled, N ++ [0%Z]).

Fixpoint axis_loop (pbc : bool3) (icell : mat3) (rcmax : R)
    (st : list vec3 * list Z) (axes : list axis)
  : outcome (list vec3 * list Z) :=
  match axes with
  | [] => Returned st
  | i :: axes =>
      obind (axis_step pbc icell rcmax st i) (fun st =>
      axis_loop pbc icell rcmax st axes)
  end.

(** The body of [NeighborList.build], returning its locals.  The first
    statement binds the local name [positions]; the later reads are of
    [self.positions], and [cutoffs] is read as a free name. *)
Definition build_body (G : globals) (atoms : Atoms) : M frame :=
  emit CallBuild;;
  let positions_local := get_positions atoms in
  modify (set_pbc (get_pbc atoms));;
  modify (set_cell (get_cell atoms));;
  cutoffs_g ← lift (global (g_cutoffs G));
  rcmax ← lift (max_values cutoffs_g);
  self_cell ← getattr cell;
  icell ← lift (npy.inv self_cell);
  self_positions ← getattr positions;
  scaled ← lift (npy.dot_opt self_positions icell);
  self_pbc ← getattr pbc;
  st ← lift (axis_loop self_pbc icell rcmax (scaled, []) range3);
  self_cell ← getattr cell;
  let R := npy.dot (fst st) self_cell in
  ret {| f_rcmax := rcmax; f_icell := icell; f_scaled := fst st;
         f_N := snd st; f_R := R |}.

(** [NeighborList.build(self, atoms)]; it has no [return] statement. *)
Definition build (G : globals) (atoms : Atoms) : M pyval :=
  build_body G atoms;; ret PyNone.

(** [NeighborList.update(self, atoms)]; it has no [return] statement. *)
Definition update (G : globals) (atoms : Atoms) : M pyval :=
  self_positions ← getattr positions;
  match self_positions with
  | None => build G atoms;; ret PyNone
  | Some P =>
      d ← lift (npy.sub (atoms_positions atoms) P);
      m ← lift (npy.max (npy.sq d));
      self_skin ← getfield skin;
      if Rlt_dec (self_skin ^ 2) m
      then build G atoms;; ret PyNone
      else ret PyNone
  end.

(** [NeighborList.neighbors(self, a)]: the tuple [(self.nbors[a], displ)]. *)
Definition neighbors (G : globals) (a : Z) : M pyval :=
  self_nbors ← getattr nbors;
  entry ← lift (index self_nbors a);
  displ ← lift (global (g_displ G));
  ret (PyTuple [PyInts entry; displ]).

Arguments bind : simpl never.

(** ** Notions used in the statements *)

(** The outcome of reading an attribute slot. *)
Definition attr {A} (x : option A) : outcome A :=
  match x with Some v => Returned v | None => Raised AttributeError end.

(** A computation that neither changes the instance nor calls [build]. *)
Definition readonly {A} (m : M A) : Prop :=
  forall s, post (m s) = s /\ trace (m s) = [].

(** A run performed a rebuild when it invoked [build]. *)
Definition rebuilt {A} (r : run A) : Prop := In CallBuild (trace r).

(** The instance after the two attribute assignments that open [build]. *)
Definition overwritten (atoms : Atoms) (s : NeighborList) : NeighborList :=
  set_cell (get_cell atoms) (set_pbc (get_pbc atoms) s).

(** A method without [return] yields [None] when its body completes. *)
Definition discard {A} (o : outcome A) : outcome pyval :=
  match o with Returned _ => Returned PyNone | Raised e => Raised e end.

Definition axis_eqb (i j : axis) : bool :=
  match i, j with
  | A0, A0 | A1, A1 | A2, A2 => true
  | _, _ => false
  end.

(** The Euclidean distance between two positions. *)
Definition dist (p q : vec3) : R := sqrt (vdot (vsub p q) (vsub p q)).

(** [h] as the loop of [build] computes it for axis [i], from column [i] of
    the inverse cell. *)
Definition slab (icell : mat3) (i : axis) : R :=
  1 / sqrt (vdot (col icell i) (col icell i)).

(** The entry that the loop of [build] appends to [N] for axis [i]. *)
Definition repeats (pbc : bool3) (icell : mat3) (rcmax : R) (i : axis) : Z :=
  if get pbc i then (int (rcmax / slab icell i) + 1)%Z else 0%Z.

(** What the loop of [build] does to one row of [scaled] on axis [i], and on
    the three axes in turn. *)
Definition wrap_axis (pbc : bool3) (i : axis) (p : vec3) : vec3 :=
  if get pbc i then set p i (fmod (get p i) 1) else p.

Definition wrap (pbc : bool3) (p : vec3) : vec3 :=
  wrap_axis pbc A2 (wrap_axis pbc A1 (wrap_axis pbc A0 p)).

(** The locals of a completed [build], from what it read. *)
Definition frame_of (atoms : Atoms) (rcmax : R) (icell : mat3) (P : list vec3)
  : frame :=
  let scaled := map (wrap (atoms_pbc atoms)) (npy.dot P icell) in
  {| f_rcmax := rcmax; f_icell := icell; f_scaled := scaled;
     f_N := map (repeats (atoms_pbc atoms) icell rcmax) range3;
     f_R := npy.dot scaled (atoms_cell atoms) |}.

(** The indices Python accepts for a sequence [l]. *)
Definition in_index_range {A} (l : list A) (a : Z) : Prop :=
  (- Z.of_nat (length l) <= a < Z.of_nat (length l))%Z.

(** The same atoms with other positions, and the same instance with
    another cutoff table. *)
Definition with_positions (P : list vec3) (atoms : Atoms) : Atoms :=
  {| atoms_positions := P; atoms_pbc := atoms_pbc atoms;
     atoms_cell := atoms_cell atoms |}.

Definition set_cutoffs (l : loc) (s : NeighborList) : NeighborList :=
  {| cutoffs := l; skin := skin s; positions := positions s;
     pbc := pbc s; cell := cell s; nbors := nbors s |}.

(** The instances the class itself produces: made by the constructor and
    then passed through any calls of its methods, whether they complete or
    raise, under any binding of the free names. *)
Inductive reachable : NeighborList -> Prop :=
| reachable_init c sk (h h' : store) nl :
    __init__ c sk h = Some (nl, h') -> reachable nl
| reachable_update G atoms s :
    reachable s -> reachable (post (update G atoms s))
| reachable_build G atoms s :
    reachable s -> reachable (post (build G atoms s))
| reachable_neighbors G a s :
    reachable s -> reachable (post (neighbors G a s)).

(** *** The specification's wording, for comparison with the code *)

(** [update] reports by a boolean whether it rebuilt. *)
Definition reports_rebuild (G : globals) (atoms : Atoms) (s : NeighborList)
  : Prop :=
  exists b, res (update G atoms s) = Returned (PyBool b) /\
            (b = true <-> rebuilt (update G atoms s)).

(** A failed [build] leaves the instance as it was. *)
Definition build_atomic (G : globals) (atoms : Atoms) (s : NeighborList)
  : Prop :=
  forall e, res (build G atoms s) = Raised e -> post (build G atoms s) = s.

(** ** Concrete cells, atoms and instances *)

Definition origin : vec3 := Triple 0 0 0.
Definition far : vec3 := Triple 1 0 0.
Definition diagonal : vec3 := Triple 0.25 0.25 0.
Definition behind : vec3 := Triple (-0.25) 0 0.

Definition identity : mat3 :=
  Triple (Triple 1 0 0) (Triple 0 1 0) (Triple 0 0 1).
Definition flat_cell : mat3 := Triple origin origin origin.

Definition periodic : bool3 := Triple true true true.

(** The module as it stands: neither name is bound. *)
Definition G0 : globals := {| g_cutoffs := None; g_displ := None |}.

(** Globals binding [cutoffs] to one species with effective cutoff 1.3,
    and to one with effective cutoff 0.3. *)
Definition G1 : globals :=
  {| g_cutoffs := Some {[ 1%Z := 1.3 ]};
     g_displ := Some (PyVecs [far]) |}.
Definition G2 : globals :=
  {| g_cutoffs := Some {[ 1%Z := 0.3 ]}; g_displ := None |}.

(** An instance with skin 0.3 whose [positions] and [nbors] have been set. *)
Definition nl_with (P : list vec3) (nb : option (list (list Z)))
  : NeighborList :=
  {| cutoffs := 1%positive; skin := 0.3; positions := Some (Some P);
     pbc := Some periodic; cell := Some identity; nbors := nb |}.
Definition nl_at (P : list vec3) : NeighborList := nl_with P None.

Definition atoms_at (P : list vec3) : Atoms :=
  {| atoms_positions := P; atoms_pbc := periodic; atoms_cell := identity |}.
Definition atoms_flat : Atoms :=
  {| atoms_positions := [origin]; atoms_pbc := periodic;
     atoms_cell := flat_cell |}.

(** An instance whose [positions] are [None], the initial state of the
    specification. *)
Definition nl_stale : NeighborList :=
  {| cutoffs := 1%positive; skin := 0.3; positions := Some None;
     pbc := None; cell := None; nbors := None |}.

(** * ase.calculators.subprocesscalculator: the pipe protocol

    [main] is the server loop of the subprocess; it is embedded as a
    function of the stream of objects it unpickles from its standard input,
    yielding its outcome and the objects it pickles to its standard output.
    [PythonSubProcessCalculator] is the client; its methods are embedded in
    a state-and-exception monad whose trace records the processes spawned,
    the objects written and the waits.  Pickling is taken to hand over the
    object unchanged, and the calculators are a parameter. *)

Module subprocesscalculator.

(** The exceptions this module can raise; [CalculatorError] stands for
    whatever a calculator raises. *)
Inductive error :=
| EOFError
| ValueError
| TypeError
| AttributeError
| RuntimeError
| AssertionError
| CalculatorError (n : nat).

Inductive answer (A : Type) :=
| Done (a : A)
| Fail (e : error).
Arguments Done {A} a.
Arguments Fail {A} e.

(** The objects that travel through the pipes: strings, tuples, and
    [Other] for any object that is neither, that does not compare equal to a
    string and that cannot be unpacked into three. *)
#[warnings="-register-all"]
Inductive obj :=
| Str (s : string)
| Seq (l : list obj)
| Other (n : nat).

(** [o == s] for a string literal [s]. *)
Definition is_str (o : obj) (s : string) : bool :=
  match o with
  | Str t => bool_decide (t = s)
  | _ => false
  end.

(** [a, b, c = o]. *)
Definition unpack3 (o : obj) : answer (obj * obj * obj) :=
  match o with
  | Seq [a; b; c] => Done (a, b, c)
  | Seq _ => Fail ValueError
  | Str s =>
      match String.list_ascii_of_string s with
      | [a; b; c] => Done (Str (String a EmptyString),
                           Str (String b EmptyString),
                           Str (String c EmptyString))
      | _ => Fail ValueError
      end
  | Other _ => Fail TypeError
  end.

(** What [main] needs of the calculators it can be asked to unpack:
    [pack.unpack_calculator()], [calc.results.clear()], [calc.calculate(...)]
    with the exception it raises if any, and [calc.results]. *)
Record backend := {
  calc : Type;
  unpack_calculator : obj -> answer calc;
  clear : calc -> calc;
  calculate : calc -> obj -> obj -> obj -> calc * option error;
  results : calc -> obj
}.

Section Server.
Variable B : backend.

(** The [while True] loop of [main] on what is left of the input: its
    outcome and the objects it sends.  Reading past the end of the input
    raises [EOFError]. *)
Fixpoint serve (c : calc B) (input : list obj) : answer unit * list obj :=
  match input with
  | [] => (Fail EOFError, [])
  | instruction :: input =>
      if is_str instruction "stop" then (Done tt, [])
      else if negb (is_str instruction "calculate") then (Fail ValueError, [])
      else
        match input with
        | [] => (Fail EOFError, [])
        | request :: input =>
            match unpack3 request with
            | Fail e => (Fail e, [])
            | Done (atoms, properties, system_changes) =>
                let c := clear B c in
                match calculate B c atoms properties system_changes with
                | (c, Some e) => (Fail e, [])
                | (c, None) =>
                    let '(r, sent) := serve c input in
                    (r, results B c :: sent)
                end
            end
        end
  end.

(** [main()]: the packed calculator is read and unpacked, then the loop
    runs. *)
Definition main (input : list obj) : answer unit * list obj :=
  match input with
  | [] => (Fail EOFError, [])
  | pack :: input =>
      match unpack_calculator B pack with
      | Fail e => (Fail e, [])
      | Done c => serve c input
      end
  end.
End Server.


(** *** The client *)

(** What a [PythonSubProcessCalculator] does to the outside world. *)
Inductive event :=
| Spawn
| Write (o : obj)
| Wait.

(** The instance.  [proc] is [None] until [__init__] has assigned it, then
    Python's [None] or the handle of the running subprocess. *)
Record PythonSubProcessCalculator := {
  proc : option (option unit);
  calc_input : obj
}.

(** A method call: its outcome, the instance afterwards and what it did. *)
Definition C (A : Type) : Type :=
  PythonSubProcessCalculator ->
  answer A * PythonSubProcessCalculator * list event.

Definition cret {A} (a : A) : C A := fun s => (Done a, s, []).
Definition cfail {A} (e : error) : C A := fun s => (Fail e, s, []).

Definition cbind {A B} (m : C A) (f : A -> C B) : C B :=
  fun s =>
    match m s with
    | (Done a, s, t) =>
        match f a s with
        | (r, s, t') => (r, s, t ++ t')
        end
    | (Fail e, s, t) => (Fail e, s, t)
    end.

#[global] Instance C_ret : MRet C := @cret.
#[global] Instance C_bind : MBind C := fun A B f m => cbind m f.

Definition effect (e : event) : C unit := fun s => (Done tt, s, [e]).

Definition set_proc (p : option unit) : C unit :=
  fun s => (Done tt, {| proc := Some p; calc_input := calc_input s |}, []).

(** [self.proc], and [self.proc.stdin] or [self.proc.wait]. *)
Definition get_proc : C (option unit) :=
  fun s =>
    match proc s with
    | Some p => (Done p, s, [])
    | None => (Fail AttributeError, s, [])
    end.

Definition running : C unit :=
  p ← get_proc;
  match p with
  | Some _ => cret tt
  | None => cfail AttributeError
  end.

(** [PythonSubProcessCalculator.__init__], after the base class. *)
Definition __init__ (calc_input : obj) : PythonSubProcessCalculator :=
  {| proc := Some None; calc_input := calc_input |}.

(** [set(self, **kwargs)] *)
Definition set (kwargs : list (string * obj)) : C unit :=
  fun s =>
    match proc s with
    | Some _ => (Fail RuntimeError, s, [])
    | None => (Done tt, s, [])
    end.

(** [_send(self, obj)]: pickle to [self.proc.stdin] and flush. *)
Definition _send (o : obj) : C unit :=
  running;; effect (Write o).

(** [__enter__(self)], with assertions enabled. *)
Definition __enter__ : C unit :=
  p ← get_proc;
  match p with
  | Some _ => cfail AssertionError
  | None =>
      effect Spawn;;
      set_proc (Some tt);;
      ci ← (fun s => (Done (calc_input s), s, []));
      _send ci
  end.

(** [__exit__(self, *args)] *)
Definition __exit__ : C unit :=
  _send (Str "stop");;
  running;;
  effect Wait;;
  set_proc None.

(** [_run_calculation(self, atoms, properties, system_changes)] *)
Definition _run_calculation (atoms properties system_changes : obj) : C unit :=
  _send (Str "calculate");;
  _send (Seq [atoms; properties; system_changes]).

(** The requests of a [with] block, one after the other. *)
Fixpoint run_calculations (reqs : list (obj * obj * obj)) : C unit :=
  match reqs with
  | [] => cret tt
  | (a, p, c) :: reqs => _run_calculation a p c;; run_calculations reqs
  end.

Definition session (reqs : list (obj * obj * obj)) : C unit :=
  __enter__;; run_calculations reqs;; __exit__.

(** The objects written, in order. *)
Definition written (t : list event) : list obj :=
  flat_map (fun e => match e with Write o => [o] | _ => [] end) t.

(** The stream of a session with the given requests. *)
Definition requests (reqs : list (obj * obj * obj)) : list obj :=
  flat_map (fun '(a, p, c) => [Str "calculate"; Seq [a; p; c]]) reqs.

(** What a calculator does with a list of requests: the results it hands
    back, and the calculator afterwards or the exception that stopped it. *)
Fixpoint answers (B : backend) (c : calc B) (reqs : list (obj * obj * obj))
  : list obj * answer (calc B) :=
  match reqs with
  | [] => ([], Done c)
  | (a, p, ch) :: reqs =>
      match calculate B (clear B c) a p ch with
      | (c, Some e) => ([], Fail e)
      | (c, None) =>
          let '(sent, r) := answers B c reqs in (results B c :: sent, r)
      end
  end.

(** The method calls a user can make. *)
Inductive call :=
| CallEnter
| CallExit
| CallRun (atoms properties system_changes : obj)
| CallSet (kwargs : list (string * obj)).

Definition perform (k : call) : C unit :=
  match k with
  | CallEnter => __enter__
  | CallExit => __exit__
  | CallRun a p c => _run_calculation a p c
  | CallSet kw => set kw
  end.

(** Calls one after the other, each whether or not the one before raised:
    the instance after them and everything they did. *)
Fixpoint perform_all (ks : list call) (s : PythonSubProcessCalculator)
  : PythonSubProcessCalculator * list event :=
  match ks with
  | [] => (s, [])
  | k :: ks =>
      match perform k s with
      | (_, s, t) =>
          let '(s, t') := perform_all ks s in (s, t ++ t')
      end
  end.

(** A trace in which processes are spawned and waited for in turn and
    objects are only written to a running one. *)
Fixpoint orderly (running : bool) (t : list event) : bool :=
  match t with
  | [] => true
  | Spawn :: t => negb running && orderly true t
  | Write _ :: t => running && orderly running t
  | Wait :: t => running && orderly false t
  end.

Definition is_running (s : PythonSubProcessCalculator) : bool :=
  match proc s with
  | Some (Some _) => true
  | _ => false
  end.

Definition count_calculate (input : list obj) : nat :=
  length (List.filter (fun o => is_str o "calculate") input).

(** [PackedCalculator.calculator]: the client for a packed calculator. *)
Definition calculator (pack : obj) : PythonSubProcessCalculator :=
  __init__ pack.

(** The two states of an instance: outside and inside a [with] block. *)
Definition idle (ci : obj) : PythonSubProcessCalculator :=
  {| proc := Some None; calc_input := ci |}.
Definition busy (ci : obj) : PythonSubProcessCalculator :=
  {| proc := Some (Some tt); calc_input := ci |}.

(** A calculator that counts its calculations and reports the count. *)
Definition counting : backend :=
  {| calc := nat;
     unpack_calculator :=
       fun o => match o with Other n => Done n | _ => Fail AttributeError end;
     clear := fun c => c;
     calculate := fun c _ _ _ => (S c, None);
     results := fun c => Other c |}.

End subprocesscalculator.


(** ** Runs of the monad *)

Section Runs.
Context {A B : Type}.

Lemma bind_run (m : M A) (f : A -> M B) (s : NeighborList) :
  bind m f s =
  match res (m s) with
  | Returned a =>
      Run (res (f a (post (m s)))) (post (f a (post (m s))))
          (trace (m s) ++ trace (f a (post (m s))))
  | Raised e => Run (Raised e) (post (m s)) (trace (m s))
  end.
Proof. reflexivity. Qed.

Lemma bind_emit (e : event) (f : unit -> M B) s :
  bind (emit e) f s =
  Run (res (f tt s)) (post (f tt s)) (e :: trace (f tt s)).
Proof. reflexivity. Qed.

Lemma bind_modify g (f : unit -> M B) s :
  bind (modify g) f s = f tt (g s).
Proof.
  unfold bind, modify; simpl. destruct (f tt (g s)) as [[]]; reflexivity.
Qed.

Lemma bind_lift (o : outcome A) (f : A -> M B) s :
  bind (lift o) f s =
  match o with
  | Returned a => f a s
  | Raised e => Run (Raised e) s []
  end.
Proof.
  unfold bind, lift; simpl. destruct o as [a|e]; [|reflexivity].
  destruct (f a s); reflexivity.
Qed.

Lemma bind_getattr (slot : NeighborList -> option A) (f : A -> M B) s :
  bind (getattr slot) f s =
  match slot s with
  | Some a => f a s
  | None => Run (Raised AttributeError) s []
  end.
Proof.
  unfold bind, getattr; simpl. destruct (slot s) as [a|]; [|reflexivity].
  simpl. destruct (f a s); reflexivity.
Qed.

Lemma bind_getfield (field : NeighborList -> A) (f : A -> M B) s :
  bind (getfield field) f s = f (field s) s.
Proof.
  unfold bind, getfield; simpl. destruct (f (field s) s); reflexivity.
Qed.

Lemma readonly_ret (a : A) : readonly (ret a).
Proof. intros s; split; reflexivity. Qed.

Lemma readonly_lift (o : outcome A) : readonly (lift o).
Proof. intros s; split; reflexivity. Qed.

Lemma readonly_getattr (slot : NeighborList -> option A) :
  readonly (getattr slot).
Proof.
  intros s; unfold getattr; destruct (slot s); split; reflexivity.
Qed.

Lemma readonly_bind (m : M A) (f : A -> M B) :
  readonly m -> (forall a, readonly (f a)) -> readonly (bind m f).
Proof.
  intros Hm Hf s. rewrite bind_run.
  destruct (Hm s) as [Hp Ht].
  destruct (res (m s)) as [a|e]; simpl.
  - rewrite Hp, Ht. destruct (Hf a s) as [Hp' Ht']. rewrite Hp', Ht'. done.
  - done.
Qed.
End Runs.

(** ** Maxima and truncation *)

Lemma Rmax_gt c a b : c < Rmax a b <-> c < a \/ c < b.
Proof.
  unfold Rmax. destruct (Rle_dec a b); split; intros H; try lra;
    destruct H; lra.
Qed.

Lemma fold_Rmax_gt xs x c :
  c < fold_left Rmax xs x <-> c < x \/ exists y, In y xs /\ c < y.
Proof.
  revert x. induction xs as [|z xs IH]; intros x; cbn [fold_left].
  - split; [auto|]. intros [H|[y [[] _]]]. exact H.
  - rewrite IH, Rmax_gt. split.
    + intros [[H|H]|[y [Hy H]]]; eauto.
      * right; exists z; split; [left; reflexivity|exact H].
      * right; exists y; split; [right; exact Hy|exact H].
    + intros [H|[y [[->|Hy] H]]]; eauto.
Qed.

Lemma fold_Rmax_In xs x : In (fold_left Rmax xs x) (x :: xs).
Proof.
  revert x. induction xs as [|z xs IH]; intros x; cbn [fold_left].
  - left; reflexivity.
  - destruct (IH (Rmax x z)) as [H|H].
    + rewrite <- H. unfold Rmax.
      destruct (Rle_dec x z); [right; left|left]; reflexivity.
    + right; right; exact H.
Qed.

Lemma fold_Rmax_ub xs x y : In y (x :: xs) -> y <= fold_left Rmax xs x.
Proof.
  intros Hy. destruct (Rle_lt_dec y (fold_left Rmax xs x)) as [H|H]; [exact H|].
  exfalso. apply (Rlt_irrefl (fold_left Rmax xs x)).
  apply fold_Rmax_gt. destruct Hy as [->|Hy]; [left; exact H|].
  right; exists y; split; assumption.
Qed.

(** [max(d.values())] is a value of [d] that bounds all of them. *)
Lemma max_values_spec (d : gmap Z R) m :
  max_values d = Returned m ->
  (exists k, d !! k = Some m) /\ (forall k v, d !! k = Some v -> v <= m).
Proof.
  unfold max_values.
  destruct ((map_to_list d).*2) as [|x xs] eqn:E; [discriminate|].
  intros [= <-]. split.
  - pose proof (fold_Rmax_In xs x) as H. rewrite <- E in H.
    apply list_elem_of_In, list_elem_of_fmap in H as [[k v] [-> H]].
    exists k. apply elem_of_map_to_list in H. exact H.
  - intros k v Hk. apply fold_Rmax_ub. rewrite <- E.
    apply list_elem_of_In, list_elem_of_fmap. exists (k, v).
    split; [reflexivity|]. apply elem_of_map_to_list. exact Hk.
Qed.

Lemma max_values_empty (d : gmap Z R) :
  max_values d = Raised ValueError <-> d = ∅.
Proof.
  unfold max_values. split.
  - destruct ((map_to_list d).*2) as [|x xs] eqn:E; [|discriminate].
    intros _. apply fmap_nil_inv in E.
    apply map_to_list_empty_iff in E. exact E.
  - intros ->. rewrite map_to_list_empty. reflexivity.
Qed.

Lemma max_values_singleton (k : Z) (v : R) :
  max_values {[ k := v ]} = Returned v.
Proof. unfold max_values. rewrite map_to_list_singleton. reflexivity. Qed.

Lemma int_floor x : 0 <= x -> int x = Zfloor x.
Proof.
  intros H. unfold int. destruct (Rle_dec 0 x); [reflexivity|contradiction].
Qed.

Lemma sq_gt_iff (c x : R) : 0 <= c -> (c ^ 2 < x ^ 2 <-> c < Rabs x).
Proof.
  intros Hc. unfold Rabs. destruct (Rcase_abs x); split; intros; nra.
Qed.

(** ** The inverse cell *)

Lemma triple_ext {A} (a b c a' b' c' : A) :
  a = a' -> b = b' -> c = c' -> Triple a b c = Triple a' b' c'.
Proof. congruence. Qed.

Lemma get_vsub p q i : get (vsub p q) i = get p i - get q i.
Proof. destruct i; reflexivity. Qed.

Lemma inv_returned m ic :
  npy.inv m = Returned ic ->
  det m <> 0 /\ ic = mscale (/ det m) (adjugate m).
Proof.
  unfold npy.inv. destruct (Req_dec_T (det m) 0); [discriminate|].
  intros [= <-]. done.
Qed.

Lemma inv_regular m :
  det m <> 0 -> npy.inv m = Returned (mscale (/ det m) (adjugate m)).
Proof.
  intros H. unfold npy.inv.
  destruct (Req_dec_T (det m) 0); [contradiction|reflexivity].
Qed.

Lemma inv_singular m : det m = 0 -> npy.inv m = Raised LinAlgError.
Proof.
  intros H. unfold npy.inv.
  destruct (Req_dec_T (det m) 0); [reflexivity|contradiction].
Qed.

(** [m] times its inverse is the identity matrix. *)
Lemma inv_spec m ic :
  npy.inv m = Returned ic ->
  forall i j, vdot (row m i) (col ic j) = if axis_eqb i j then 1 else 0.
Proof.
  intros H i j. apply inv_returned in H as [Hd ->].
  destruct m as [[a0 a1 a2] [b0 b1 b2] [c0 c1 c2]].
  cbv [det t0 t1 t2] in Hd.
  destruct i, j;
    cbv [vdot row col get mscale vscale adjugate det t0 t1 t2 axis_eqb];
    field; exact Hd.
Qed.

Lemma vdot_self_pos (a c : vec3) : vdot a c = 1 -> 0 < vdot c c.
Proof.
  destruct a as [a0 a1 a2], c as [c0 c1 c2]. cbv [vdot t0 t1 t2]. intros H.
  destruct (Req_dec c0 0) as [->|]; [|nra].
  destruct (Req_dec c1 0) as [->|]; [|nra].
  destruct (Req_dec c2 0) as [->|]; [|nra].
  lra.
Qed.

(** No column of an inverse is the zero vector, so the divisions in the
    loop of [build] cannot raise. *)
Lemma col_inv_pos m ic i :
  npy.inv m = Returned ic -> 0 < vdot (col ic i) (col ic i).
Proof.
  intros H. apply (vdot_self_pos (row m i)).
  rewrite (inv_spec _ _ H). destruct i; reflexivity.
Qed.

Lemma det_identity : det identity = 1.
Proof. cbv [det identity t0 t1 t2]. ring. Qed.

Lemma inv_identity : npy.inv identity = Returned identity.
Proof.
  rewrite inv_regular by (rewrite det_identity; lra). f_equal.
  rewrite det_identity.
  cbv [mscale vscale adjugate identity t0 t1 t2].
  repeat apply triple_ext; field.
Qed.

Lemma det_flat_cell : det flat_cell = 0.
Proof. cbv [det flat_cell origin t0 t1 t2]. ring. Qed.

(** ** The loop of [build] *)

Lemma axis_step_ok pbc icell rcmax scaled N i :
  0 < vdot (col icell i) (col icell i) ->
  axis_step pbc icell rcmax (scaled, N) i =
  Returned (map (wrap_axis pbc i) scaled, N ++ [repeats pbc icell rcmax i]).
Proof.
  intros Hpos. unfold axis_step, wrap_axis, repeats, slab.
  destruct (get pbc i).
  - assert (Hs : 0 < sqrt (vdot (col icell i) (col icell i)))
      by (apply sqrt_lt_R0; exact Hpos).
    unfold fdiv at 1. destruct (Req_dec_T _ 0) as [E|_]; [lra|].
    cbn [obind]. unfold fdiv. destruct (Req_dec_T _ 0) as [E|_].
    + exfalso. assert (0 < 1 / sqrt (vdot (col icell i) (col icell i)))
        by (apply Rdiv_lt_0_compat; lra).
      lra.
    + reflexivity.
  - rewrite map_id. reflexivity.
Qed.

Lemma axis_loop_ok pbc icell rcmax scaled :
  (forall i, 0 < vdot (col icell i) (col icell i)) ->
  axis_loop pbc icell rcmax (scaled, []) range3 =
  Returned (map (wrap pbc) scaled, map (repeats pbc icell rcmax) range3).
Proof.
  intros Hpos. unfold range3. cbn [axis_loop].
  rewrite axis_step_ok by apply Hpos. cbn [obind].
  rewrite axis_step_ok by apply Hpos. cbn [obind].
  rewrite axis_step_ok by apply Hpos. cbn [obind].
  rewrite !map_map. reflexivity.
Qed.

(** ** [build] *)

Section Build.
Variables (G : globals) (atoms : Atoms) (s : NeighborList).

(** Whatever its outcome, [build] has assigned [pbc] and [cell], nothing
    else, and counts as one invocation. *)
Lemma build_body_effect :
  post (build_body G atoms s) = overwritten atoms s /\
  trace (build_body G atoms s) = [CallBuild].
Proof.
  unfold build_body, mbind, M_bind, overwritten.
  rewrite bind_emit, !bind_modify. cbn [post trace].
  match goal with |- context [ bind ?m ?f ?s ] =>
    assert (H : readonly (bind m f)) end.
  { repeat (apply readonly_bind;
            [ first [apply readonly_lift | apply readonly_getattr]
            | intros ? ]).
    apply readonly_ret. }
  match goal with |- context [ bind ?m ?f ?s ] =>
    destruct (H s) as [-> ->] end.
  done.
Qed.

(** The outcome of the body as a chain of the steps that can raise. *)
Lemma build_body_res :
  res (build_body G atoms s) =
  obind (global (g_cutoffs G)) (fun d =>
  obind (max_values d) (fun rcmax =>
  obind (npy.inv (atoms_cell atoms)) (fun icell =>
  obind (attr (positions s)) (fun P =>
  obind (npy.dot_opt P icell) (fun scaled =>
  obind (axis_loop (atoms_pbc atoms) icell rcmax (scaled, []) range3)
    (fun st =>
  Returned {| f_rcmax := rcmax; f_icell := icell; f_scaled := fst st;
              f_N := snd st;
              f_R := npy.dot (fst st) (atoms_cell atoms) |})))))).
Proof.
  unfold build_body, mbind, M_bind, get_cell, get_pbc, get_positions.
  rewrite bind_emit, !bind_modify. cbn [res].
  rewrite bind_lift.
  destruct (global (g_cutoffs G)) as [d|e]; [|reflexivity].
  cbn [obind]. rewrite bind_lift.
  destruct (max_values d) as [rcmax|e]; [|reflexivity].
  cbn [obind]. rewrite bind_getattr. cbn [cell set_cell set_pbc].
  rewrite bind_lift.
  destruct (npy.inv (atoms_cell atoms)) as [icell|e]; [|reflexivity].
  cbn [obind]. rewrite bind_getattr. cbn [positions set_cell set_pbc].
  destruct (positions s) as [P|]; [|reflexivity].
  cbn [attr obind]. rewrite bind_lift.
  destruct (npy.dot_opt P icell) as [scaled|e]; [|reflexivity].
  cbn [obind]. rewrite bind_getattr. cbn [pbc set_cell set_pbc].
  rewrite bind_lift.
  destruct (axis_loop _ _ _ _ _) as [st|e]; [|reflexivity].
  cbn [obind]. rewrite bind_getattr. cbn [cell set_cell set_pbc].
  reflexivity.
Qed.

(** [build] completes when [cutoffs] is bound to a non-empty table, the
    cell is regular and [self.positions] holds an array. *)
Lemma build_body_total d rcmax icell P :
  g_cutoffs G = Some d ->
  max_values d = Returned rcmax ->
  npy.inv (atoms_cell atoms) = Returned icell ->
  positions s = Some (Some P) ->
  res (build_body G atoms s) = Returned (frame_of atoms rcmax icell P).
Proof.
  intros HG Hmax Hinv HP. rewrite build_body_res, HG. cbn [global obind].
  rewrite Hmax. cbn [obind]. rewrite Hinv. cbn [obind]. rewrite HP.
  cbn [attr obind npy.dot_opt].
  rewrite axis_loop_ok by (intros i; eapply col_inv_pos, Hinv).
  reflexivity.
Qed.

(** Conversely, a completed [build] read all of these. *)
Lemma build_body_frame fr :
  res (build_body G atoms s) = Returned fr ->
  exists d P,
    g_cutoffs G = Some d /\
    max_values d = Returned (f_rcmax fr) /\
    npy.inv (atoms_cell atoms) = Returned (f_icell fr) /\
    positions s = Some (Some P) /\
    fr = frame_of atoms (f_rcmax fr) (f_icell fr) P.
Proof.
  rewrite build_body_res.
  destruct (g_cutoffs G) as [d|]; [|discriminate]. cbn [global obind].
  destruct (max_values d) as [rcmax|] eqn:Hmax; [|discriminate].
  cbn [obind].
  destruct (npy.inv (atoms_cell atoms)) as [icell|] eqn:Hinv;
    [|discriminate].
  cbn [obind].
  destruct (positions s) as [[P|]|]; try discriminate.
  cbn [attr obind npy.dot_opt].
  rewrite axis_loop_ok by (intros i; eapply col_inv_pos, Hinv).
  cbn [obind fst snd]. intros [= <-]. exists d, P. cbn. done.
Qed.

Lemma build_run :
  build G atoms s =
  Run (discard (res (build_body G atoms s))) (overwritten atoms s)
      [CallBuild].
Proof.
  unfold build, mbind, M_bind. rewrite bind_run.
  destruct build_body_effect as [-> ->].
  destruct (res (build_body G atoms s)); reflexivity.
Qed.

Lemma build_then_none :
  bind (build G atoms) (fun _ => ret PyNone) s = build G atoms s.
Proof.
  rewrite bind_run, build_run. cbn [res post trace].
  destruct (res (build_body G atoms s)); reflexivity.
Qed.

Lemma build_returns d P :
  g_cutoffs G = Some d -> d <> ∅ -> det (atoms_cell atoms) <> 0 ->
  positions s = Some (Some P) ->
  build G atoms s = Run (Returned PyNone) (overwritten atoms s) [CallBuild].
Proof.
  intros HG Hd Hdet HP. rewrite build_run.
  destruct (max_values d) as [rcmax|e] eqn:Hmax.
  - erewrite build_body_total; eauto using inv_regular.
  - exfalso. apply Hd, max_values_empty.
    unfold max_values in *.
    destruct ((map_to_list d).*2); [reflexivity|discriminate].
Qed.

(** A zero-volume cell makes [build] raise. *)
Lemma build_singular :
  det (atoms_cell atoms) = 0 -> exists e, res (build G atoms s) = Raised e.
Proof.
  intros Hdet. rewrite build_run. cbn [res]. rewrite build_body_res.
  destruct (g_cutoffs G) as [d|]; [|eexists; reflexivity].
  cbn [global obind].
  destruct (max_values d) as [m|]; [|eexists; reflexivity]. cbn [obind].
  rewrite inv_singular by exact Hdet. eexists; reflexivity.
Qed.

(** From the initial state of the specification, [self.positions is
    None], [build] cannot complete: it multiplies [None] by the inverse. *)
Lemma build_stale_raises :
  positions s = Some None -> exists e, res (build G atoms s) = Raised e.
Proof.
  intros HP. rewrite build_run. cbn [res]. rewrite build_body_res, HP.
  destruct (g_cutoffs G) as [d|]; [|eexists; reflexivity].
  cbn [global obind].
  destruct (max_values d) as [m|]; [|eexists; reflexivity]. cbn [obind].
  destruct (npy.inv (atoms_cell atoms)); eexists; reflexivity.
Qed.
End Build.

Lemma build_flat_cell :
  build G1 atoms_flat (nl_at [origin]) =
  Run (Raised LinAlgError) (overwritten atoms_flat (nl_at [origin]))
      [CallBuild].
Proof.
  rewrite build_run. f_equal. rewrite build_body_res.
  cbn [G1 g_cutoffs global obind]. rewrite max_values_singleton.
  cbn [obind atoms_cell atoms_flat].
  rewrite inv_singular by apply det_flat_cell. reflexivity.
Qed.

Lemma G1_cutoffs_nonempty : ({[ 1%Z := 1.3 ]} : gmap Z R) <> ∅.
Proof. apply insert_non_empty. Qed.

(** ** [update] *)

Lemma npy_sub_same_length a b :
  length a = length b -> npy.sub a b = Returned (zip_with vsub a b).
Proof.
  intros H. unfold npy.sub. rewrite decide_True by exact H. reflexivity.
Qed.

Lemma In_flat_sq (a : list vec3) (y : R) :
  In y (npy.flat (npy.sq a)) <-> exists v i, v ∈ a /\ y = get v i ^ 2.
Proof.
  unfold npy.flat, npy.sq. rewrite in_flat_map. split.
  - intros [w [Hw Hy]]. apply in_map_iff in Hw as [v [<- Hv]].
    apply list_elem_of_In in Hv. cbn [t0 t1 t2] in Hy.
    destruct Hy as [<-|[<-|[<-|[]]]];
      [exists v, A0 | exists v, A1 | exists v, A2]; split; auto.
  - intros [v [i [Hv ->]]]. eexists. split.
    + apply in_map_iff. exists v. split; [reflexivity|].
      apply list_elem_of_In. exact Hv.
    + cbn [t0 t1 t2]. destruct i; cbn [get In]; auto.
Qed.

Section Update.
Variables (G : globals) (atoms : Atoms) (s : NeighborList).

(** The three ways through [update]. *)
Lemma update_run :
  update G atoms s =
  match positions s with
  | None => Run (Raised AttributeError) s []
  | Some None => build G atoms s
  | Some (Some P) =>
      match npy.sub (atoms_positions atoms) P with
      | Raised e => Run (Raised e) s []
      | Returned d =>
          match npy.max (npy.sq d) with
          | Raised e => Run (Raised e) s []
          | Returned m =>
              if Rlt_dec (skin s ^ 2) m then build G atoms s
              else Run (Returned PyNone) s []
          end
      end
  end.
Proof.
  unfold update, mbind, M_bind. rewrite bind_getattr.
  destruct (positions s) as [[P|]|];
    [| apply build_then_none | reflexivity].
  rewrite bind_lift. destruct (npy.sub _ P) as [d|e]; [|reflexivity].
  rewrite bind_lift. destruct (npy.max _) as [m|e]; [|reflexivity].
  rewrite bind_getfield.
  destruct (Rlt_dec _ m); [apply build_then_none | reflexivity].
Qed.

(** No call of [update] changes [self.positions]. *)
Lemma update_positions :
  positions (post (update G atoms s)) = positions s.
Proof.
  rewrite update_run.
  destruct (positions s) as [[P|]|] eqn:E; cbn [post];
    try (rewrite build_run; exact E); try exact E.
  destruct (npy.sub _ P); [|exact E].
  destruct (npy.max _); [|exact E].
  destruct (Rlt_dec _ _); [rewrite build_run|]; exact E.
Qed.

(** The test that [update] applies: it rebuilds exactly when some single
    coordinate of some atom has moved by more than the skin. *)
Lemma update_rebuilds_iff P :
  positions s = Some (Some P) ->
  length (atoms_positions atoms) = length P ->
  P <> [] ->
  0 <= skin s ->
  rebuilt (update G atoms s) <->
  exists k p q i,
    atoms_positions atoms !! k = Some p /\ P !! k = Some q /\
    skin s < Rabs (get p i - get q i).
Proof.
  intros HP Hlen Hne Hskin. rewrite update_run, HP.
  rewrite npy_sub_same_length by exact Hlen.
  set (d := zip_with vsub (atoms_positions atoms) P).
  assert (Hd : forall y, In y (npy.flat (npy.sq d)) <->
            exists k p q i, atoms_positions atoms !! k = Some p /\
              P !! k = Some q /\ y = (get p i - get q i) ^ 2).
  { intros y. rewrite In_flat_sq. split.
    - intros [v [i [Hv ->]]].
      apply elem_of_lookup_zip_with in Hv as [k [p [q [-> [Hp Hq]]]]].
      exists k, p, q, i. rewrite get_vsub. auto.
    - intros [k [p [q [i [Hp [Hq ->]]]]]]. exists (vsub p q), i.
      rewrite get_vsub. split; [|reflexivity].
      eapply elem_of_lookup_zip_with_2; eauto. }
  unfold npy.max. destruct (npy.flat (npy.sq d)) as [|x xs] eqn:E.
  - exfalso. destruct P as [|q P]; [congruence|].
    destruct (atoms_positions atoms) as [|p ps]; [discriminate|].
    discriminate E.
  - unfold rebuilt. destruct (Rlt_dec _ _) as [H|H].
    + rewrite build_run. cbn [trace].
      split; [intros _|intros _; left; reflexivity].
      assert (exists y, In y (x :: xs) /\ skin s ^ 2 < y)
        as [y [Hy Hlt]].
      { apply fold_Rmax_gt in H as [H|[y [Hy H]]].
        - exists x; split; [left; reflexivity|exact H].
        - exists y; split; [right; exact Hy|exact H]. }
      apply Hd in Hy as [k [p [q [i [Hp [Hq ->]]]]]].
      exists k, p, q, i. repeat split; auto.
      apply sq_gt_iff; assumption.
    + cbn [trace]. split; [intros []|].
      intros [k [p [q [i [Hp [Hq Hlt]]]]]]. exfalso. apply H.
      apply sq_gt_iff in Hlt; [|exact Hskin].
      assert (In ((get p i - get q i) ^ 2) (x :: xs)) as Hin
        by (apply Hd; eauto 10).
      apply fold_Rmax_gt. destruct Hin as [->|Hin]; [left; exact Hlt|].
      right; eauto.
Qed.
End Update.

(** One atom that moved from the origin to [far], seen from an instance
    whose cached position is the origin: [update] rebuilds, and [build]
    completes. *)
Lemma update_far_rebuilds s :
  positions s = Some (Some [origin]) -> skin s = 0.3 ->
  update G1 (atoms_at [far]) s =
  Run (Returned PyNone) (overwritten (atoms_at [far]) s) [CallBuild].
Proof.
  intros HP Hs. rewrite update_run, HP. cbn [atoms_positions atoms_at].
  rewrite npy_sub_same_length by reflexivity.
  cbv [npy.sq npy.max npy.flat zip_with map flat_map app vsub origin far
       t0 t1 t2].
  rewrite Hs.
  destruct (Rlt_dec _ _) as [_|H].
  - eapply build_returns; [reflexivity | apply G1_cutoffs_nonempty | | exact HP].
    cbn [atoms_cell atoms_at]. rewrite det_identity. lra.
  - exfalso. apply H, fold_Rmax_gt. left. lra.
Qed.

(** A freshly constructed instance has no [positions] attribute, so its
    first [update] raises before any test. *)
Lemma update_after_init G atoms c sk (h h' : store) nl :
  __init__ c sk h = Some (nl, h') ->
  update G atoms nl = Run (Raised AttributeError) nl [].
Proof.
  unfold __init__. destruct (h !! c); [|discriminate].
  intros [= <- _]. rewrite update_run. reflexivity.
Qed.

(** ** [neighbors] *)

Lemma neighbors_run G a s :
  neighbors G a s =
  Run (obind (attr (nbors s)) (fun nb =>
       obind (index nb a) (fun entry =>
       obind (global (g_displ G)) (fun d =>
       Returned (PyTuple [PyInts entry; d]))))) s [].
Proof.
  unfold neighbors, mbind, M_bind. rewrite bind_getattr.
  destruct (nbors s) as [nb|]; [|reflexivity]. cbn [attr obind].
  rewrite bind_lift. destruct (index nb a) as [entry|e]; [|reflexivity].
  cbn [obind]. rewrite bind_lift. destruct (global (g_displ G)); reflexivity.
Qed.

Lemma index_in_range {A} (l : list A) (a : Z) :
  in_index_range l a ->
  exists x, index l a = Returned x /\
            l !! Z.to_nat (a mod Z.of_nat (length l)) = Some x.
Proof.
  unfold in_index_range, index. intros Ha.
  set (n := Z.of_nat (length l)) in *.
  assert (Hk : (if (a <? 0)%Z then (a + n)%Z else a) = (a mod n)%Z).
  { destruct (Z.ltb_spec a 0).
    - apply Z.mod_unique with (q := (-1)%Z); lia.
    - symmetry. apply Z.mod_small. lia. }
  rewrite Hk.
  assert (0 <= a mod n < n)%Z as Hr by (apply Z.mod_pos_bound; lia).
  destruct (Z.leb_spec 0 (a mod n)); [|lia].
  destruct (Z.ltb_spec (a mod n) n); [|lia]. cbn [andb].
  destruct (l !! Z.to_nat (a mod n)) as [x|] eqn:E; [eauto|].
  apply lookup_ge_None in E. lia.
Qed.

Lemma index_out_of_range {A} (l : list A) (a : Z) :
  ~ in_index_range l a -> index l a = Raised IndexError.
Proof.
  unfold in_index_range, index. intros Ha.
  set (n := Z.of_nat (length l)) in *.
  destruct (Z.ltb_spec a 0).
  - destruct (Z.leb_spec 0 (a + n)); [|reflexivity].
    destruct (Z.ltb_spec (a + n) n); [lia|reflexivity].
  - destruct (Z.leb_spec 0 a); [|reflexivity].
    destruct (Z.ltb_spec a n); [lia|reflexivity].
Qed.

(** No method ever assigns [nbors]: on an instance that only the class has
    touched, [neighbors] raises [AttributeError] for every index. *)
Lemma neighbors_unset G a s :
  nbors s = None -> neighbors G a s = Run (Raised AttributeError) s [].
Proof. intros H. rewrite neighbors_run, H. reflexivity. Qed.

(** ** What the class never assigns *)

Lemma run_eq {A} (r r' : run A) :
  res r = res r' -> post r = post r' -> trace r = trace r' -> r = r'.
Proof. destruct r, r'. cbn. congruence. Qed.

(** No sequence of calls assigns [positions] or [nbors]. *)
Lemma reachable_unset s : reachable s -> positions s = None /\ nbors s = None.
Proof.
  induction 1 as [c sk h h' nl H | G atoms s _ [IHp IHn]
                 | G atoms s _ [IHp IHn] | G a s _ IH].
  - unfold __init__ in H. destruct (h !! c); [|discriminate].
    injection H as <- _. done.
  - rewrite update_run, IHp. done.
  - rewrite build_run. done.
  - rewrite neighbors_run. exact IH.
Qed.

(** Without cached positions [build] does not complete. *)
Lemma build_unset_raises G atoms s :
  positions s = None -> exists e, res (build G atoms s) = Raised e.
Proof.
  intros HP. rewrite build_run. cbn [res]. rewrite build_body_res, HP.
  destruct (g_cutoffs G) as [d|]; [|eexists; reflexivity].
  cbn [global obind].
  destruct (max_values d) as [m|]; [|eexists; reflexivity]. cbn [obind].
  destruct (npy.inv (atoms_cell atoms)); eexists; reflexivity.
Qed.

(** ** The unit cell *)

Lemma sqrt_unit :
  sqrt (1 * 1 + 0 * 0 + 0 * 0) = 1 /\
  sqrt (0 * 0 + 1 * 1 + 0 * 0) = 1 /\
  sqrt (0 * 0 + 0 * 0 + 1 * 1) = 1.
Proof.
  repeat split; match goal with |- sqrt ?x = _ =>
    replace x with (1 * 1) by ring end; apply sqrt_square; lra.
Qed.

Lemma repeats_identity rcmax (z : Z) :
  IZR z <= rcmax < IZR z + 1 -> 0 <= rcmax ->
  map (repeats periodic identity rcmax) range3 = [z + 1; z + 1; z + 1]%Z.
Proof.
  intros Hz H0. destruct sqrt_unit as (E0 & E1 & E2).
  cbv [map range3 repeats slab periodic get identity col vdot t0 t1 t2].
  rewrite E0, E1, E2.
  replace (rcmax / (1 / 1)) with rcmax by field.
  rewrite int_floor by exact H0.
  rewrite (Zfloor_eq z) by lra. reflexivity.
Qed.

(** ** The update policy *)

(** C1 (evaluated on the code).  The instance was built with its one atom at
    the origin and has skin 0.3.  The atom is now at (0.25, 0.25, 0): its
    Euclidean displacement exceeds the skin, but no single coordinate moved
    by more than 0.3, and [update] returns without calling [build]. *)
Theorem update_misses_diagonal_move :
  let s := nl_at [origin] in
  let r := update G1 (atoms_at [diagonal]) s in
  skin s < dist diagonal origin /\
  res r = Returned PyNone /\ ~ rebuilt r /\ post r = s.
Proof.
  cbv zeta.
  assert (H : update G1 (atoms_at [diagonal]) (nl_at [origin]) =
              Run (Returned PyNone) (nl_at [origin]) []).
  { rewrite update_run.
    cbn [positions skin nl_at nl_with atoms_positions atoms_at].
    rewrite npy_sub_same_length by reflexivity.
    cbv [npy.sq npy.max npy.flat zip_with map flat_map app vsub origin
         diagonal t0 t1 t2].
    destruct (Rlt_dec _ _) as [H|_]; [|reflexivity].
    exfalso. apply fold_Rmax_gt in H. destruct H as [H|[y [Hy H]]]; [lra|].
    destruct Hy as [<-|[<-|[]]]; lra. }
  rewrite H. cbn [res post trace]. repeat split.
  - unfold dist. cbv [vdot vsub origin diagonal t0 t1 t2 nl_at nl_with skin].
    replace 0.3 with (sqrt (0.3 * 0.3)) by (apply sqrt_square; lra).
    apply sqrt_lt_1; lra.
  - intros [].
Qed.


(** C3, as the specification words it, fails both ways: a call that does not
    rebuild returns [None], not [False], and a call that rebuilds returns
    [None], not [True]. *)
Lemma update_reports_nothing :
  (res (update G0 (atoms_at [origin]) (nl_at [origin])) = Returned PyNone /\
   ~ rebuilt (update G0 (atoms_at [origin]) (nl_at [origin])) /\
   ~ reports_rebuild G0 (atoms_at [origin]) (nl_at [origin])) /\
  (res (update G1 (atoms_at [far]) (nl_at [origin])) = Returned PyNone /\
   rebuilt (update G1 (atoms_at [far]) (nl_at [origin])) /\
   ~ reports_rebuild G1 (atoms_at [far]) (nl_at [origin])).
Proof.
  assert (H0 : update G0 (atoms_at [origin]) (nl_at [origin]) =
               Run (Returned PyNone) (nl_at [origin]) []).
  { rewrite update_run.
    cbn [positions skin nl_at nl_with atoms_positions atoms_at].
    rewrite npy_sub_same_length by reflexivity.
    cbv [npy.sq npy.max npy.flat zip_with map flat_map app vsub origin
         t0 t1 t2].
    destruct (Rlt_dec _ _) as [H|_]; [|reflexivity].
    exfalso. apply fold_Rmax_gt in H. destruct H as [H|[y [Hy H]]]; [lra|].
    destruct Hy as [<-|[<-|[]]]; lra. }
  split.
  - rewrite H0. cbn [res trace]. repeat split.
    + intros [].
    + intros [b [H _]]. rewrite H0 in H. discriminate.
  - rewrite (update_far_rebuilds (nl_at [origin])) by reflexivity.
    cbn [res]. repeat split.
    + left; reflexivity.
    + intros [b [H _]].
      rewrite (update_far_rebuilds (nl_at [origin])) in H by reflexivity.
      discriminate.
Qed.

(** C3 (amended).  Every call of [update] that returns, returns [None],
    whether it rebuilt or not. *)
Theorem update_returns_None G atoms s v :
  res (update G atoms s) = Returned v -> v = PyNone.
Proof.
  rewrite update_run.
  destruct (positions s) as [[P|]|]; cbn [res]; try discriminate.
  - destruct (npy.sub _ P); [|discriminate].
    destruct (npy.max _); [|discriminate].
    destruct (Rlt_dec _ _).
    + rewrite build_run. cbn [res].
      destruct (res (build_body G atoms s)); cbn; congruence.
    + cbn; congruence.
  - rewrite build_run. cbn [res].
    destruct (res (build_body G atoms s)); cbn; congruence.
Qed.

Lemma update_returns_None_witness :
  res (update G1 (atoms_at [far]) (nl_at [origin])) = Returned PyNone /\
  rebuilt (update G1 (atoms_at [far]) (nl_at [origin])) /\
  PyNone = PyNone.
Proof.
  assert (H : update G1 (atoms_at [far]) (nl_at [origin]) =
              Run (Returned PyNone)
                  (overwritten (atoms_at [far]) (nl_at [origin])) [CallBuild])
    by (apply update_far_rebuilds; reflexivity).
  split; [rewrite H; reflexivity|]. split; [rewrite H; left; reflexivity|].
  apply (update_returns_None G1 (atoms_at [far]) (nl_at [origin]) PyNone).
  rewrite H. reflexivity.
Defined.


(** ** The body of [build] *)

Ltac run_build inv_lemma :=
  eapply build_body_total;
  [reflexivity | apply max_values_singleton | apply inv_lemma | reflexivity].

(** C5 (evaluated on the code).  [build] scales and wraps the cached
    [self.positions], never the positions of the atoms it is given, which it
    binds to a local name and does not read: replacing the positions of the
    atoms changes nothing in a run of [build].  With the cached position at
    the origin and the atom passed in at (-0.25, 0, 0) in the periodic unit
    cell, [build] completes with [scaled] holding the origin; the fractional
    coordinate -0.25 of the atom is not wrapped to 0.75. *)
Theorem build_wraps_cached_positions :
  (forall G atoms P s,
     build_body G (with_positions P atoms) s = build_body G atoms s) /\
  let atoms := atoms_at [behind] in
  exists fr,
    res (build_body G1 atoms (nl_at [origin])) = Returned fr /\
    npy.dot (atoms_positions atoms) (f_icell fr) = [behind] /\
    f_scaled fr = [origin] /\
    f_scaled fr <> [Triple 0.75 0 0].
Proof.
  split.
  - intros G atoms P s. apply run_eq.
    + rewrite !build_body_res. reflexivity.
    + destruct (build_body_effect G (with_positions P atoms) s) as [-> _].
      destruct (build_body_effect G atoms s) as [-> _]. reflexivity.
    + destruct (build_body_effect G (with_positions P atoms) s) as [_ ->].
      destruct (build_body_effect G atoms s) as [_ ->]. reflexivity.
  - cbv zeta. eexists. split; [run_build inv_identity|].
    cbn [frame_of f_scaled f_icell npy.dot map atoms_pbc atoms_positions
         atoms_at].
    assert (Hb : vecmat behind identity = behind).
    { cbv [vecmat vdot col identity behind get t0 t1 t2].
      apply triple_ext; lra. }
    assert (Ho : wrap periodic (vecmat origin identity) = origin).
    { cbv [wrap wrap_axis periodic get set vecmat vdot col identity origin
           t0 t1 t2 fmod].
      replace (0 * 1 + 0 * 0 + 0 * 0) with 0 by ring.
      replace (0 * 0 + 0 * 1 + 0 * 0) with 0 by ring.
      replace (0 * 0 + 0 * 0 + 0 * 1) with 0 by ring.
      rewrite (Zfloor_eq 0) by lra. apply triple_ext; simpl; lra. }
    rewrite Hb, Ho. repeat split.
    intros [= H]. lra.
Qed.

(** C6 (evaluated on the code).  [build] takes [rcmax] from the free name
    [cutoffs], not from the table of effective cutoffs that the constructor
    stored on the instance.  With the module as it stands the name is
    unbound, and every call of [build] raises [NameError] before any repeat
    count is computed.  The table of the instance is never read.  Were the
    name bound, the counts would follow that binding: in the periodic unit
    cell the same instance gets (2, 2, 2) when [cutoffs] holds 1.3 and
    (1, 1, 1) when it holds 0.3. *)
Theorem build_reads_free_cutoffs :
  (forall atoms s,
     build G0 atoms s
     = Run (Raised NameError) (overwritten atoms s) [CallBuild]) /\
  (forall G atoms l s,
     res (build_body G atoms (set_cutoffs l s))
     = res (build_body G atoms s)) /\
  let atoms := atoms_at [origin] in
  let s := nl_at [origin] in
  (exists fr, res (build_body G1 atoms s) = Returned fr /\
     f_rcmax fr = 1.3 /\ f_N fr = [2; 2; 2]%Z) /\
  (exists fr, res (build_body G2 atoms s) = Returned fr /\
     f_rcmax fr = 0.3 /\ f_N fr = [1; 1; 1]%Z).
Proof.
  split; [|split].
  - intros atoms s. rewrite build_run, build_body_res. reflexivity.
  - intros G atoms l s. rewrite !build_body_res. reflexivity.
  - cbv zeta. split; eexists;
      (split; [run_build inv_identity|]); (split; [reflexivity|]);
      cbn [frame_of f_N atoms_pbc atoms_at].
    + apply (repeats_identity 1.3 1); simpl; lra.
    + apply (repeats_identity 0.3 0); simpl; lra.
Qed.

(** C7, as the specification words it, fails on a zero-volume cell.  With
    [cutoffs] bound, [build] raises from the matrix inverse; with the module
    as it stands, it raises at the name [cutoffs].  Either way it has already
    replaced the cell. *)
Lemma failed_build_overwrites_cell :
  (res (build G1 atoms_flat (nl_at [origin])) = Raised LinAlgError /\
   ~ build_atomic G1 atoms_flat (nl_at [origin])) /\
  (res (build G0 atoms_flat (nl_at [origin])) = Raised NameError /\
   ~ build_atomic G0 atoms_flat (nl_at [origin])).
Proof.
  assert (Hne : overwritten atoms_flat (nl_at [origin]) <> nl_at [origin]).
  { intros H. apply (f_equal cell) in H. cbn in H. injection H. intros. lra. }
  assert (H0 : build G0 atoms_flat (nl_at [origin]) =
               Run (Raised NameError) (overwritten atoms_flat (nl_at [origin]))
                   [CallBuild]).
  { rewrite build_run, build_body_res. reflexivity. }
  split; split.
  - rewrite build_flat_cell. reflexivity.
  - intros H. specialize (H LinAlgError).
    rewrite build_flat_cell in H. exact (Hne (H eq_refl)).
  - rewrite H0. reflexivity.
  - intros H. specialize (H NameError).
    rewrite H0 in H. exact (Hne (H eq_refl)).
Qed.

(** C7 (amended).  When [build] raises, the cached positions, the pair
    table, the cutoff table and the skin are those from before the call, and
    the periodicity flags and the cell are those of the atoms passed in. *)
Theorem failed_build_effect G atoms s e :
  res (build G atoms s) = Raised e ->
  let s' := post (build G atoms s) in
  positions s' = positions s /\ nbors s' = nbors s /\
  cutoffs s' = cutoffs s /\ skin s' = skin s /\
  pbc s' = Some (atoms_pbc atoms) /\ cell s' = Some (atoms_cell atoms).
Proof. intros _. rewrite build_run. cbn. done. Qed.

Lemma failed_build_effect_witness :
  res (build G1 atoms_flat (nl_at [origin])) = Raised LinAlgError /\
  let s' := post (build G1 atoms_flat (nl_at [origin])) in
  positions s' = positions (nl_at [origin]) /\
  nbors s' = nbors (nl_at [origin]) /\
  cutoffs s' = cutoffs (nl_at [origin]) /\
  skin s' = skin (nl_at [origin]) /\
  pbc s' = Some (atoms_pbc atoms_flat) /\
  cell s' = Some (atoms_cell atoms_flat).
Proof.
  split.
  - rewrite build_flat_cell. reflexivity.
  - apply (failed_build_effect G1 atoms_flat (nl_at [origin]) LinAlgError).
    rewrite build_flat_cell. reflexivity.
Defined.

(** ** The adjacency view *)

(** C8 (evaluated on the code).  No method assigns [self.nbors].  On every
    instance that the class produces, whatever calls came before and
    whatever the free names are bound to, [neighbors] raises
    [AttributeError] for every index and leaves the instance alone: it
    never raises [IndexError] and never returns. *)
Theorem neighbors_never_returns G a s :
  reachable s -> neighbors G a s = Run (Raised AttributeError) s [].
Proof. intros H. apply neighbors_unset, reachable_unset, H. Qed.

(** A new instance, a call of [build] with two atoms, then [neighbors(0)]. *)
Lemma neighbors_never_returns_witness :
  exists nl h',
    __init__ 1%positive None {[ 1%positive := {[ 1%Z := 1 ]} ]}
      = Some (nl, h') /\
    let s := post (build G1 (atoms_at [origin; far]) nl) in
    neighbors G1 0 s = Run (Raised AttributeError) s [].
Proof.
  destruct (__init__ 1%positive None {[ 1%positive := {[ 1%Z := 1 ]} ]})
    as [[nl h']|] eqn:E.
  - exists nl, h'. split; [reflexivity|]. cbv zeta.
    apply (neighbors_never_returns G1 0).
    apply reachable_build. exact (reachable_init _ _ _ _ _ E).
  - exfalso. unfold __init__ in E. rewrite lookup_singleton_eq in E.
    discriminate E.
Defined.

(** ** The constructor *)

(** C10.  [__init__] keeps the skin it is given, or 0.3 when it is given
    none, and stores, at an address the store did not use, a table that maps
    every species of the caller's mapping to its radius plus that skin and
    has no other key.  The caller's mapping is as it was, and replacing it
    later does not change the stored table. *)
Theorem init_effective_cutoffs (h : store) (c : loc) (d : gmap Z R)
    (sk : option R) :
  h !! c = Some d ->
  exists nl h' t,
    __init__ c sk h = Some (nl, h') /\
    skin nl = default 0.3 sk /\
    h' !! cutoffs nl = Some t /\
    (forall k, t !! k = (fun rc => rc + default 0.3 sk) <$> d !! k) /\
    h !! cutoffs nl = None /\
    h' !! c = Some d /\
    (forall d', <[c := d']> h' !! cutoffs nl = Some t).
Proof.
  intros Hc. unfold __init__. rewrite Hc.
  set (l := fresh (dom h)).
  assert (Hl : h !! l = None) by (apply not_elem_of_dom, is_fresh).
  assert (Hne : l <> c) by (intros ->; congruence).
  eexists _, _, _. split; [reflexivity|]. cbn [skin cutoffs].
  split; [reflexivity|]. split; [apply lookup_insert_eq|].
  split; [intros k; apply lookup_fmap|].
  split; [exact Hl|].
  split; [rewrite lookup_insert_ne by exact Hne; exact Hc|].
  intros d'. rewrite lookup_insert_ne by congruence. apply lookup_insert_eq.
Qed.

Lemma init_effective_cutoffs_witness :
  exists nl h' t,
    __init__ 1%positive None {[ 1%positive := {[ 1%Z := 1 ]} ]}
      = Some (nl, h') /\
    skin nl = 0.3 /\
    h' !! cutoffs nl = Some t /\
    (forall k, t !! k
               = (fun rc => rc + 0.3) <$> ({[ 1%Z := 1 ]} : gmap Z R) !! k) /\
    ({[ 1%positive := {[ 1%Z := 1 ]} ]} : store) !! cutoffs nl = None /\
    h' !! 1%positive = Some {[ 1%Z := 1 ]} /\
    (forall d', <[1%positive := d']> h' !! cutoffs nl = Some t).
Proof.
  apply (init_effective_cutoffs {[ 1%positive := {[ 1%Z := 1 ]} ]} 1%positive
           {[ 1%Z := 1 ]} None).
  apply lookup_singleton_eq.
Defined.

(** * Further properties of [NeighborList] *)

Lemma npy_max_sq_raises a : 
  (npy.max (npy.sq a) = Raised ValueError <-> a = []) /\
  (a <> [] -> exists m, npy.max (npy.sq a) = Returned m).
Proof.
  unfold npy.max. destruct a as [|v a]; cbn.
  - split; [done|]. intros []. reflexivity.
  - split; [split; intros; discriminate|]. intros _. eexists; reflexivity.
Qed.

(** X3.  With cached positions in place, [update] raises [ValueError]
    before any rebuild, leaving the instance as it was, exactly when either
    array has no atoms or the two atom counts differ and neither is one (a
    single row is broadcast). *)
Theorem update_shape_mismatch G atoms s P :
  positions s = Some (Some P) ->
  let a := atoms_positions atoms in
  update G atoms s = Run (Raised ValueError) s [] <->
  a = [] \/ P = [] \/
  (length a <> length P /\ length a <> 1%nat /\ length P <> 1%nat).
Proof.
  intros HP a. rewrite update_run, HP. fold a.
  assert (Hbuild : forall r : run pyval,
            build G atoms s = r -> r <> Run (Raised ValueError) s []).
  { intros r <- H. rewrite build_run in H. discriminate H. }
  assert (Hmax : forall d : list vec3,
    match npy.max (npy.sq d) with
    | Returned m => if Rlt_dec (skin s ^ 2) m then build G atoms s
                    else Run (Returned PyNone) s []
    | Raised e => Run (Raised e) s []
    end = Run (Raised ValueError) s [] <-> d = []).
  { intros d. destruct (npy_max_sq_raises d) as [H1 H2]. split.
    - intros H. destruct (npy.max (npy.sq d)) as [m|e] eqn:E.
      + destruct (Rlt_dec _ _); [exfalso; eapply Hbuild; eauto|discriminate].
      + apply H1. congruence.
    - intros ->. reflexivity. }
  unfold npy.sub. destruct (decide (length a = length P)) as [Hlen|Hlen].
  - rewrite Hmax. split.
    + intros H. left. destruct a, P; try discriminate; reflexivity.
    + intros [->|[->|[H _]]]; try contradiction.
      * reflexivity.
      * destruct a; [reflexivity|discriminate].
  - destruct a as [|x [|x' a]].
    + destruct P as [|y [|y' P]]; [contradiction| |].
      * rewrite Hmax. split; auto.
      * split; auto.
    + rewrite Hmax. split.
      * intros H. destruct P; [auto|discriminate].
      * intros [H|[->|[_ [H _]]]]; [discriminate|reflexivity|].
        exfalso; apply H; reflexivity.
    + destruct P as [|y [|y' P]].
      * split; auto.
      * rewrite Hmax. split; [discriminate|].
        intros [H|[H|[_ [_ H]]]]; try discriminate.
        exfalso; apply H; reflexivity.
      * split; [intros _|reflexivity].
        right; right. cbn in *. repeat split; lia.
Qed.

(** X4.  A call of [update] invokes [build] at most once.  Without a rebuild
    the instance is as before; with one, only [pbc] and [cell] have changed,
    to those of the atoms.  The cutoff table, the skin, the cached positions
    and the pair table are never touched. *)
Theorem update_footprint G atoms s :
  let r := update G atoms s in
  (trace r = [] /\ post r = s \/
   trace r = [CallBuild] /\ post r = overwritten atoms s) /\
  cutoffs (post r) = cutoffs s /\ skin (post r) = skin s /\
  positions (post r) = positions s /\ nbors (post r) = nbors s.
Proof.
  cbv zeta. rewrite update_run.
  destruct (positions s) as [[P|]|] eqn:E; cbn [post trace];
    try rewrite build_run; cbn [post trace]; auto 10.
  destruct (npy.sub _ P); [|cbn; auto 10].
  destruct (npy.max _); [|cbn; auto 10].
  destruct (Rlt_dec _ _); cbn; auto 10.
Qed.

(** X5.  From [self.positions is None], [update] always invokes [build] and
    never completes: it raises [NameError], [ValueError], [LinAlgError] or,
    at the product of [None] with the inverse cell, [TypeError], and the
    positions are still [None] afterwards. *)
Theorem update_stale_never_completes G atoms s :
  positions s = Some None ->
  let r := update G atoms s in
  trace r = [CallBuild] /\
  (exists e, res r = Raised e /\
     (e = NameError \/ e = ValueError \/ e = LinAlgError \/ e = TypeError)) /\
  positions (post r) = Some None.
Proof.
  intros HP. cbv zeta. rewrite update_run, HP, build_run. cbn [trace res post].
  split; [reflexivity|]. split; [|exact HP].
  rewrite build_body_res, HP.
  destruct (g_cutoffs G) as [d|]; [|eauto 10]. cbn [global obind].
  destruct (max_values d) as [m|e] eqn:E; cbn [obind].
  - destruct (npy.inv (atoms_cell atoms)) as [ic|e] eqn:E'; cbn.
    + eauto 10.
    + unfold npy.inv in E'. destruct (Req_dec_T _ _); [|discriminate].
      injection E' as <-. eauto 10.
  - unfold max_values in E. destruct ((map_to_list d).*2); [|discriminate].
    injection E as <-. cbn. eauto 10.
Qed.

(** X6.  On an instance straight from the constructor, [update] and
    [neighbors] raise [AttributeError] without touching it, and [build]
    raises as well. *)
Theorem fresh_instance_raises G atoms a c sk (h h' : store) nl :
  __init__ c sk h = Some (nl, h') ->
  update G atoms nl = Run (Raised AttributeError) nl [] /\
  neighbors G a nl = Run (Raised AttributeError) nl [] /\
  exists e, res (build G atoms nl) = Raised e.
Proof.
  unfold __init__. destruct (h !! c); [|discriminate].
  intros [= <- _]. split; [rewrite update_run; reflexivity|].
  split; [rewrite neighbors_run; reflexivity|].
  rewrite build_run, build_body_res. cbn [res positions attr].
  destruct (g_cutoffs G) as [d|]; [|eauto]. cbn [global obind].
  destruct (max_values d); [|eauto]. cbn [obind].
  destruct (npy.inv (atoms_cell atoms)); eauto.
Qed.

(** X14.  [neighbors] never changes the instance and never rebuilds.  It
    raises [AttributeError] exactly when no pair table is set, [NameError]
    exactly when the table is set, the index is accepted and [displ] is
    unbound, and nothing but these two and [IndexError]. *)
Theorem neighbors_failure_order G a s :
  post (neighbors G a s) = s /\ trace (neighbors G a s) = [] /\
  (res (neighbors G a s) = Raised AttributeError <-> nbors s = None) /\
  (res (neighbors G a s) = Raised NameError <->
     exists nb, nbors s = Some nb /\ in_index_range nb a /\ g_displ G = None) /\
  (forall e, res (neighbors G a s) = Raised e ->
     e = AttributeError \/ e = IndexError \/ e = NameError).
Proof.
  rewrite neighbors_run. cbn [post trace res].
  split; [reflexivity|]. split; [reflexivity|].
  destruct (nbors s) as [nb|]; cbn [attr obind].
  2:{ split; [done|]. split; [|intros e [= <-]; auto].
      split; [discriminate|]. intros (nb & H & _). discriminate. }
  assert (in_index_range nb a \/ ~ in_index_range nb a) as [Hin|Hout]
    by (unfold in_index_range; lia).
  - destruct (index_in_range nb a Hin) as [x [-> _]]. cbn [obind].
    destruct (g_displ G) as [d|]; cbn.
    + split; [split; discriminate|]. split; [|discriminate].
      split; [discriminate|]. intros (nb' & _ & _ & ?). discriminate.
    + split; [split; discriminate|]. split; [|intros e [= <-]; auto].
      split; [intros _; eauto|reflexivity].
  - rewrite index_out_of_range by exact Hout. cbn.
    split; [split; discriminate|]. split; [|intros e [= <-]; auto].
    split; [discriminate|]. intros (nb' & [= <-] & Hin & _). contradiction.
Qed.

(** X13.  Calling [build] again with the same atoms gives the same outcome
    and leaves the instance as the first call left it. *)
Theorem build_twice G atoms s :
  build G atoms (post (build G atoms s)) = build G atoms s.
Proof.
  rewrite !build_run. cbn [post]. rewrite !build_body_res.
  reflexivity.
Qed.

Lemma update_shape_mismatch_witness :
  let a := atoms_positions (atoms_at [origin; far; diagonal]) in
  update G0 (atoms_at [origin; far; diagonal]) (nl_at [origin; far])
    = Run (Raised ValueError) (nl_at [origin; far]) [] <->
  a = [] \/ [origin; far] = [] \/
  (length a <> length [origin; far] /\ length a <> 1%nat /\
   length [origin; far] <> 1%nat).
Proof.
  apply (update_shape_mismatch G0 (atoms_at [origin; far; diagonal])
           (nl_at [origin; far]) [origin; far]).
  reflexivity.
Defined.

Lemma update_stale_never_completes_witness :
  let r := update G1 (atoms_at [origin]) nl_stale in
  trace r = [CallBuild] /\
  (exists e, res r = Raised e /\
     (e = NameError \/ e = ValueError \/ e = LinAlgError \/ e = TypeError)) /\
  positions (post r) = Some None.
Proof.
  apply (update_stale_never_completes G1 (atoms_at [origin]) nl_stale).
  reflexivity.
Defined.

Lemma fresh_instance_raises_witness :
  exists nl h',
    __init__ 1%positive None {[ 1%positive := {[ 1%Z := 1 ]} ]}
      = Some (nl, h') /\
    update G1 (atoms_at [origin]) nl = Run (Raised AttributeError) nl [] /\
    neighbors G1 0 nl = Run (Raised AttributeError) nl [] /\
    exists e, res (build G1 (atoms_at [origin]) nl) = Raised e.
Proof.
  destruct (__init__ 1%positive None {[ 1%positive := {[ 1%Z := 1 ]} ]})
    as [[nl h']|] eqn:E.
  - exists nl, h'. split; [reflexivity|].
    exact (fresh_instance_raises G1 (atoms_at [origin]) 0 1%positive None
             _ h' nl E).
  - exfalso. unfold __init__ in E. rewrite lookup_singleton_eq in E.
    discriminate E.
Defined.

(** * Properties of the pipe protocol *)

Section Subprocess.
Import subprocesscalculator.
Variable B : backend.

Lemma serve_requests (c : calc B) reqs tail :
  serve B c (requests reqs ++ tail) =
  match answers B c reqs with
  | (sent, Done c') =>
      (fst (serve B c' tail), sent ++ snd (serve B c' tail))
  | (sent, Fail e) => (Fail e, sent)
  end.
Proof.
  revert c. induction reqs as [|[[a p] ch] reqs IH]; intros c.
  - cbn [requests flat_map app answers]. destruct (serve B c tail); reflexivity.
  - cbn [requests flat_map app answers serve is_str unpack3].
    rewrite !bool_decide_eq_false_2 by discriminate.
    rewrite bool_decide_eq_true_2 by reflexivity. cbn [negb].
    destruct (calculate B (clear B c) a p ch) as [c' [e|]]; [reflexivity|].
    fold (requests reqs). rewrite IH.
    destruct (answers B c' reqs) as [sent [c''|e]]; reflexivity.
Qed.

(** X15.  Fed the packed calculator, any number of requests (the string
    ['calculate'] followed by a triple) and then ['stop'], [main] answers
    each request in order with the results of that calculation and returns;
    whatever follows ['stop'] is not read.  A calculation that raises ends
    [main] with that exception after the earlier answers. *)
Theorem main_serves_requests pack c reqs rest :
  unpack_calculator B pack = Done c ->
  main B (pack :: requests reqs ++ Str "stop" :: rest) =
  match answers B c reqs with
  | (sent, Done _) => (Done tt, sent)
  | (sent, Fail e) => (Fail e, sent)
  end.
Proof.
  intros Hc. cbn [main]. rewrite Hc, serve_requests.
  destruct (answers B c reqs) as [sent [c'|e]]; [|reflexivity].
  cbn. rewrite app_nil_r. reflexivity.
Qed.

(** X16.  An instruction that is neither ['stop'] nor ['calculate'] makes
    [main] raise [ValueError], after it has answered the requests before. *)
Theorem main_bad_instruction pack c reqs o rest :
  unpack_calculator B pack = Done c ->
  is_str o "stop" = false -> is_str o "calculate" = false ->
  main B (pack :: requests reqs ++ o :: rest) =
  match answers B c reqs with
  | (sent, Done _) => (Fail ValueError, sent)
  | (sent, Fail e) => (Fail e, sent)
  end.
Proof.
  intros Hc Hs Hk. cbn [main]. rewrite Hc, serve_requests.
  destruct (answers B c reqs) as [sent [c'|e]]; [|reflexivity].
  cbn [serve fst snd]. rewrite Hs, Hk. cbn. rewrite app_nil_r. reflexivity.
Qed.

(** X17.  When its input ends without ['stop'] (at once, after the packed
    calculator, between requests or inside one), [main] raises [EOFError],
    after it has answered the complete requests. *)
Theorem main_end_of_stream pack c reqs :
  unpack_calculator B pack = Done c ->
  main B [] = (Fail EOFError, []) /\
  main B [pack] = (Fail EOFError, []) /\
  forall tail, tail = [] \/ tail = [Str "calculate"] ->
    main B (pack :: requests reqs ++ tail) =
    match answers B c reqs with
    | (sent, Done _) => (Fail EOFError, sent)
    | (sent, Fail e) => (Fail e, sent)
    end.
Proof.
  intros Hc. split; [reflexivity|]. split; [cbn; rewrite Hc; reflexivity|].
  intros tail Ht. cbn [main]. rewrite Hc, serve_requests.
  destruct (answers B c reqs) as [sent [c'|e]]; [|reflexivity].
  destruct Ht as [->| ->]; cbn; rewrite app_nil_r; reflexivity.
Qed.

Lemma serve_bounds n : forall (c : calc B) input,
  (length input <= n)%nat ->
  (length (snd (serve B c input)) <= count_calculate input)%nat /\
  (fst (serve B c input) = Done tt ->
   exists o, In o input /\ is_str o "stop" = true).
Proof.
  induction n as [|n IH]; intros c input Hn.
  - destruct input; [|cbn in Hn; lia]. cbn. split; [lia|discriminate].
  - destruct input as [|o input]; [cbn; split; [lia|discriminate]|].
    cbn [serve]. destruct (is_str o "stop") eqn:Hs.
    { cbn. split; [lia|]. intros _. exists o. split; [left; reflexivity|exact Hs]. }
    destruct (is_str o "calculate") eqn:Hk; cbn [negb];
      [|cbn; split; [lia|discriminate]].
    unfold count_calculate. cbn [List.filter]. rewrite Hk. cbn [length].
    fold (count_calculate input).
    destruct input as [|q input]; [cbn; split; [lia|discriminate]|].
    destruct (unpack3 q) as [[[a p] ch]|e]; [|cbn; split; [lia|discriminate]].
    destruct (calculate B (clear B c) a p ch) as [c' [e|]];
      [cbn; split; [lia|discriminate]|].
    destruct (IH c' input) as [H1 H2]; [cbn in Hn; lia|].
    destruct (serve B c' input) as [r sent] eqn:E. cbn [fst snd] in *.
    split.
    + cbn [length]. unfold count_calculate in *. cbn [List.filter].
      destruct (is_str q "calculate"); cbn [length]; lia.
    + intros Hr. destruct (H2 Hr) as (o' & Hin & Ho').
      exists o'. split; [right; right; exact Hin|exact Ho'].
Qed.

(** X18.  On any input, [main] sends no more objects than it was sent
    ['calculate'] instructions, and it returns only if it was sent
    ['stop']. *)
Theorem main_never_volunteers input :
  (length (snd (main B input)) <= count_calculate input)%nat /\
  (fst (main B input) = Done tt ->
   exists o, In o input /\ is_str o "stop" = true).
Proof.
  destruct input as [|pack input]; [cbn; split; [lia|discriminate]|].
  cbn [main]. destruct (unpack_calculator B pack) as [c|e];
    [|cbn; split; [lia|discriminate]].
  destruct (serve_bounds (length input) c input) as [H1 H2]; [lia|].
  split.
  - unfold count_calculate in *. cbn [List.filter].
    destruct (is_str pack "calculate"); cbn [length]; lia.
  - intros Hr. destruct (H2 Hr) as (o & Hin & Ho).
    exists o. split; [right; exact Hin|exact Ho].
Qed.

Lemma run_calculations_busy ci reqs :
  run_calculations reqs (busy ci) =
  (Done tt, busy ci, map Write (requests reqs)).
Proof.
  induction reqs as [|[[a p] c] reqs IH]; [reflexivity|].
  cbn [run_calculations]. unfold mbind, C_bind, cbind.
  change (_run_calculation a p c (busy ci))
    with (Done tt, busy ci, [Write (Str "calculate"); Write (Seq [a; p; c])]).
  cbv beta iota. rewrite IH. reflexivity.
Qed.

Lemma session_run ci reqs :
  session reqs (calculator ci) =
  (Done tt, calculator ci,
   Spawn :: Write ci :: map Write (requests reqs)
     ++ [Write (Str "stop"); Wait]).
Proof.
  unfold session, mbind, C_bind, cbind.
  change (__enter__ (calculator ci)) with (Done tt, busy ci, [Spawn; Write ci]).
  cbv beta iota. rewrite run_calculations_busy.
  change (__exit__ (busy ci))
    with (Done tt, calculator ci, [Write (Str "stop"); Wait]).
  cbv beta iota. cbn [app]. reflexivity.
Qed.

Lemma written_writes l : written (map Write l) = l.
Proof.
  unfold written. induction l as [|o l IH]; [reflexivity|].
  cbn [map flat_map app]. rewrite IH. reflexivity.
Qed.

Lemma orderly_writes l t : orderly true (map Write l ++ t) = orderly true t.
Proof. induction l as [|o l IH]; [reflexivity|]. cbn. exact IH. Qed.


Lemma perform_idle k ci :
  perform k (idle ci) =
  match k with
  | CallEnter => (Done tt, busy ci, [Spawn; Write ci])
  | CallExit | CallRun _ _ _ => (Fail AttributeError, idle ci, [])
  | CallSet _ => (Fail RuntimeError, idle ci, [])
  end.
Proof. destruct k; reflexivity. Qed.

Lemma perform_busy k ci :
  perform k (busy ci) =
  match k with
  | CallEnter => (Fail AssertionError, busy ci, [])
  | CallExit => (Done tt, idle ci, [Write (Str "stop"); Wait])
  | CallRun a p c =>
      (Done tt, busy ci, [Write (Str "calculate"); Write (Seq [a; p; c])])
  | CallSet _ => (Fail RuntimeError, busy ci, [])
  end.
Proof. destruct k; reflexivity. Qed.

Lemma perform_all_orderly ks : forall (b : bool) ci rest,
  let s := if b then busy ci else idle ci in
  let '(s', t) := perform_all ks s in
  exists b' : bool, s' = (if b' then busy ci else idle ci) /\
             orderly b (t ++ rest) = orderly b' rest.
Proof.
  induction ks as [|k ks IH]; intros b ci rest; cbv zeta.
  - cbn. exists b. done.
  - cbn [perform_all]. destruct b.
    + rewrite perform_busy. destruct k.
      * specialize (IH true ci rest). cbv zeta in IH.
        destruct (perform_all ks (busy ci)) as [s' t]. exact IH.
      * specialize (IH false ci rest). cbv zeta in IH.
        destruct (perform_all ks (idle ci)) as [s' t].
        destruct IH as [b' [-> H]]. exists b'. split; [reflexivity|].
        cbn. exact H.
      * specialize (IH true ci rest). cbv zeta in IH.
        destruct (perform_all ks (busy ci)) as [s' t].
        destruct IH as [b' [-> H]]. exists b'. split; [reflexivity|].
        cbn. exact H.
      * specialize (IH true ci rest). cbv zeta in IH.
        destruct (perform_all ks (busy ci)) as [s' t]. exact IH.
    + rewrite perform_idle. destruct k.
      * specialize (IH true ci rest). cbv zeta in IH.
        destruct (perform_all ks (busy ci)) as [s' t].
        destruct IH as [b' [-> H]]. exists b'. split; [reflexivity|].
        cbn. exact H.
      * specialize (IH false ci rest). cbv zeta in IH.
        destruct (perform_all ks (idle ci)) as [s' t]. exact IH.
      * specialize (IH false ci rest). cbv zeta in IH.
        destruct (perform_all ks (idle ci)) as [s' t]. exact IH.
      * specialize (IH false ci rest). cbv zeta in IH.
        destruct (perform_all ks (idle ci)) as [s' t]. exact IH.
Qed.

(** X20.  Whatever methods are called on a client, in whatever order and
    whether or not they raise: it never spawns a process while one is
    running, never writes to or waits for a process that is not running, and
    [set] raises [RuntimeError] at every point. *)
Theorem calls_keep_order ci ks :
  let '(s, t) := perform_all ks (calculator ci) in
  orderly false t = true /\
  (s = idle ci \/ s = busy ci) /\
  forall kwargs, set kwargs s = (Fail RuntimeError, s, []).
Proof.
  pose proof (perform_all_orderly ks false ci []) as H. cbv zeta in H.
  change (calculator ci) with (idle ci).
  destruct (perform_all ks (idle ci)) as [s t].
  destruct H as [b' [-> H]]. rewrite app_nil_r in H.
  split; [rewrite H; destruct b'; reflexivity|].
  split; [destruct b'; auto|]. intros kw. destruct b'; reflexivity.
Qed.
End Subprocess.

Section SubprocessWitnesses.
Import subprocesscalculator.

Lemma main_serves_requests_witness :
  main counting
    (Other 0 :: requests [(Other 7, Other 8, Other 9);
                          (Other 7, Other 8, Other 9)]
       ++ Str "stop" :: [Str "calculate"])
  = (Done tt, [Other 1; Other 2]).
Proof.
  exact (main_serves_requests counting (Other 0) 0%nat
           [(Other 7, Other 8, Other 9); (Other 7, Other 8, Other 9)]
           [Str "calculate"] eq_refl).
Defined.

Lemma main_bad_instruction_witness :
  main counting
    (Other 0 :: requests [(Other 7, Other 8, Other 9)]
       ++ Str "halt" :: [Str "stop"])
  = (Fail ValueError, [Other 1]).
Proof.
  exact (main_bad_instruction counting (Other 0) 0%nat
           [(Other 7, Other 8, Other 9)] (Str "halt") [Str "stop"]
           eq_refl eq_refl eq_refl).
Defined.

Lemma main_end_of_stream_witness :
  main counting [] = (Fail EOFError, []) /\
  main counting [Other 0] = (Fail EOFError, []) /\
  forall tail, tail = [] \/ tail = [Str "calculate"] ->
    main counting (Other 0 :: requests [(Other 7, Other 8, Other 9)] ++ tail)
    = (Fail EOFError, [Other 1]).
Proof.
  exact (main_end_of_stream counting (Other 0) 0%nat
           [(Other 7, Other 8, Other 9)] eq_refl).
Defined.

End SubprocessWitnesses.
